(** * modmesh.profiling._result: the profiling result table

    A shallow embedding of [src/modmesh/profiling/_result.py] and the
    properties of its three classes: the [ProfilingsFunctionResult]
    dataclass, the [ProfilingTableBuilder] layout engine and the
    [ProfilingResultPrinter] that owns the records and the columns. *)

From Stdlib Require Import ZArith Lia Ascii String.
From stdpp Require Import gmap strings list fin_maps pretty.

Local Open Scope Z_scope.

#[local] Set Warnings "-clear-no-such-hyp".

(** ** Python values and exceptions *)

(** The values that travel through the module.  A [str] is a sequence of
    characters, one [ascii] per character.  The source does no arithmetic on
    floats and never looks inside any other object (the [children] list, for
    one): all it does with them is store them, compare a name with a [str]
    and call [str()] on a cell.  A float is therefore carried by its [repr]
    text, and any other object by the text [str()] gives for it. *)
Inductive Value : Type :=
| VStr (s : string)
| VInt (z : Z)
| VFloat (repr : string)
| VObj (text : string).

#[global] Instance Value_eq_dec : EqDecision Value.
Proof. solve_decision. Defined.

(** The exceptions the module raises itself ([ValueError], with the message
    of the source), those the interpreter raises on its behalf ([TypeError]
    from the dataclass constructor, [IndexError] from list indexing), and
    whatever a caller's projector raises. *)
Inductive exn : Type :=
| ValueError (msg : string)
| TypeError
| IndexError
| Raised (what : string).

Inductive result (A : Type) : Type :=
| Ok (a : A)
| Err (e : exn).
Arguments Ok {A} a.
Arguments Err {A} e.

Definition bind {A B} (r : result A) (k : A -> result B) : result B :=
  match r with
  | Ok a => k a
  | Err e => Err e
  end.

Notation "'try' x <- r 'in' k" := (bind r (fun x => k))
  (at level 10, x name, r at level 100, k at level 200).

(** A list comprehension [[f(x) for x in l]]: elements are evaluated from
    left to right and the first exception ends the evaluation. *)
Fixpoint comprehension {A B} (f : A -> result B) (l : list A) : result (list B) :=
  match l with
  | [] => Ok []
  | x :: xs =>
      try y <- f x in
      try ys <- comprehension f xs in
      Ok (y :: ys)
  end.

(** ** Built-in string operations *)

(** [str(v)]. *)
Definition py_str (v : Value) : string :=
  match v with
  | VStr s => s
  | VInt z => pretty z
  | VFloat repr => repr
  | VObj text => text
  end.

(** [fill * n] for a one-character [fill]. *)
Fixpoint repeat_char (fill : ascii) (n : nat) : string :=
  match n with
  | O => EmptyString
  | S n' => String fill (repeat_char fill n')
  end.

(** [s.ljust(width, fill)]: [s] itself when it is at least [width] long. *)
Definition ljust (s : string) (width : Z) (fill : ascii) : string :=
  if Z.of_nat (String.length s) >=? width then s
  else s +:+ repeat_char fill (Z.to_nat (width - Z.of_nat (String.length s))).

(** [sep.join(l)]. *)
Fixpoint join (sep : string) (l : list string) : string :=
  match l with
  | [] => EmptyString
  | [x] => x
  | x :: xs => x +:+ sep +:+ join sep xs
  end.

Definition newline : string := String (ascii_of_nat 10) EmptyString.

(** ** The dataclasses *)

Record ProfilingsFunctionResult : Type := {
  name : Value;
  total_time : Value;
  count : Value;
  children : Value;
}.

Record ProfilingColumnData : Type := {
  column_name : string;
  column_data : list Value;
}.

(** [l[i]] for [i >= 0]. *)
Definition index {A} (l : list A) (i : nat) : result A :=
  match l !! i with
  | Some x => Ok x
  | None => Err IndexError
  end.

(** [v == s] for a [str] [s]: only an equal [str] compares equal. *)
Definition eq_str (v : Value) (s : string) : bool :=
  match v with
  | VStr t => bool_decide (t = s)
  | _ => false
  end.

Definition field_names : list string :=
  ["name"; "total_time"; "count"; "children"].

(** The constructor that [@dataclass] generates from the four annotated
    fields, none of which has a default, called with the entries of a raw
    record as keyword arguments:
    a keyword that is not a field is refused, and so is a field left
    without a value.  The values themselves are not inspected. *)
Definition ProfilingsFunctionResult_init (kwargs : gmap string Value)
  : result ProfilingsFunctionResult :=
  if decide (dom kwargs ⊆ list_to_set field_names) then
    match kwargs !! "name", kwargs !! "total_time",
          kwargs !! "count", kwargs !! "children" with
    | Some n, Some t, Some c, Some ch =>
        Ok {| name := n; total_time := t; count := c; children := ch |}
    | _, _, _, _ => Err TypeError
    end
  else Err TypeError.

(** ** ProfilingTableBuilder *)

Module ProfilingTableBuilder.

Record t : Type := {
  column_datas : list ProfilingColumnData;
  column_width : Z;
  row_datas : list (list Value);
}.

(** The inner loop of [__init__]: the row at index [i], one cell from
    every column in column order. *)
Definition row_at (column_datas : list ProfilingColumnData) (i : nat)
  : result (list Value) :=
  comprehension
    (fun j => try c <- index column_datas j in index (column_data c) i)
    (seq 0 (length column_datas)).

Definition init (column_datas : list ProfilingColumnData) (column_width : Z)
  : result t :=
  try c0 <- index column_datas 0 in
  let row_count := length (column_data c0) in
  try row_datas <- comprehension (row_at column_datas) (seq 0 row_count) in
  Ok {| column_datas := column_datas;
        column_width := column_width;
        row_datas := row_datas |}.

Definition generate_header (self : t) : string :=
  "| "
  +:+ join " | "
        (map (fun data => ljust (column_name data) (column_width self) " ")
             (column_datas self))
  +:+ " |" +:+ newline.

Definition generate_horizontal_lines (self : t) : string :=
  "| "
  +:+ join " | "
        (map (fun _ => ljust EmptyString (column_width self) "-") (column_datas self))
  +:+ " |" +:+ newline.

(** One pass of the loop body: the line of one row. *)
Definition row_line (self : t) (row : list Value) : string :=
  "| "
  +:+ join " | "
        (map (fun data => ljust (py_str data) (column_width self) " ") row)
  +:+ " |" +:+ newline.

Definition generate_result_row_by_row (self : t) : string :=
  if (length (column_datas self) =? 0)%nat then EmptyString
  else
    fold_left (fun result row => result +:+ row_line self row)
              (row_datas self) EmptyString.

Definition generate_table_str (self : t) : string :=
  generate_header self
  +:+ generate_horizontal_lines self
  +:+ generate_result_row_by_row self.

End ProfilingTableBuilder.

(** ** ProfilingResultPrinter *)

Module ProfilingResultPrinter.

Record t : Type := {
  profiling_results : list ProfilingsFunctionResult;
  column_datas : list ProfilingColumnData;
}.

(** A projector handed to [add_column]: a pure function of one record
    that returns a cell or raises. *)
Definition projector : Type := ProfilingsFunctionResult -> result Value.

(** [__init__]; [None] is Python's [None] passed for the list. *)
Definition init (profiling_results : option (list (gmap string Value)))
  : result t :=
  match profiling_results with
  | None => Err (ValueError "Profiling results cannot be None.")
  | Some raws =>
      try results <- comprehension ProfilingsFunctionResult_init raws in
      Ok {| profiling_results := results;
            column_datas :=
              [] ++ [ {| column_name := "func";
                         column_data := map name results |} ] |}
  end.

(** [__getitem__]. *)
Definition getitem (self : t) (function_name : string)
  : result ProfilingsFunctionResult :=
  let result :=
    List.filter (fun x => eq_str (name x) function_name)
                (profiling_results self) in
  if (length result =? 0)%nat then
    Err (ValueError "The result with specific function name is absent.")
  else index result 0.

(** [add_column] mutates [self]: it returns the outcome of the call
    together with the printer as the call leaves it.  The argument of
    [append] is evaluated before [append] runs. *)
Definition add_column (column_name : string) (callable : projector)
    (self : t) : result unit * t :=
  match comprehension callable (profiling_results self) with
  | Err e => (Err e, self)
  | Ok data =>
      (Ok tt,
       {| profiling_results := profiling_results self;
          column_datas :=
            column_datas self
            ++ [ {| column_name := column_name; column_data := data |} ] |})
  end.

(** [print_result]: the text handed to [print], which writes it and a
    newline to the standard output. *)
Definition print_result (self : t) (column_width : Z) : result string :=
  try builder <- ProfilingTableBuilder.init (column_datas self) column_width in
  Ok (ProfilingTableBuilder.generate_table_str builder +:+ newline).

End ProfilingResultPrinter.

Module TB := ProfilingTableBuilder.
Module RP := ProfilingResultPrinter.

(** The printers a caller can hold: a freshly constructed one, or one on
    which [add_column] has been called, whether that call returned or
    raised. *)
Inductive reachable : RP.t -> Prop :=
| reachable_init raws p :
    RP.init (Some raws) = Ok p -> reachable p
| reachable_add_column p column_name callable :
    reachable p -> reachable (RP.add_column column_name callable p).2.

(** ** Notions used in the statements *)

(** The lines of a body, one after the other. *)
Fixpoint concat_lines (lines : list string) : string :=
  match lines with
  | [] => EmptyString
  | line :: rest => line +:+ concat_lines rest
  end.

(** How many times a character occurs in a string. *)
Fixpoint count_char (c : ascii) (s : string) : nat :=
  match s with
  | EmptyString => O
  | String a s' => ((if decide (a = c) then 1 else 0) + count_char c s')%nat
  end.

Definition nl : ascii := ascii_of_nat 10.

(** The field names as a set of keys. *)
Definition fields : gset string := list_to_set field_names.

Definition is_ok {A} (r : result A) : Prop :=
  match r with
  | Ok _ => True
  | Err _ => False
  end.

(** The record of Example 1 of the specification and its raw form. *)
Definition raw_f : gmap string Value :=
  <["name" := VStr "f"]>
    (<["total_time" := VFloat "1.5"]>
       (<["count" := VInt 2]> (<["children" := VObj "[]"]> ∅))).

Definition record_f : ProfilingsFunctionResult :=
  {| name := VStr "f"; total_time := VFloat "1.5";
     count := VInt 2; children := VObj "[]" |}.

Definition record_g : ProfilingsFunctionResult :=
  {| name := VStr "g"; total_time := VFloat "0.0";
     count := VInt 0; children := VObj "[]" |}.

(** A second record named "g", with another count. *)
Definition record_g' : ProfilingsFunctionResult :=
  {| name := VStr "g"; total_time := VFloat "2.5";
     count := VInt 4; children := VObj "[]" |}.

(** A printer holding the records "f" and "g" and the seed column. *)
Definition printer_fg : RP.t :=
  {| RP.profiling_results := [record_f; record_g];
     RP.column_datas :=
       [ {| column_name := "func"; column_data := [VStr "f"; VStr "g"] |} ] |}.

(** A projector that divides by the count and so raises on "g". *)
Definition per_call : RP.projector :=
  fun r =>
    if decide (count r = VInt 0) then Err (Raised "ZeroDivisionError")
    else Ok (total_time r).

(** Whether a projector returns for every record of a list. *)
Definition returns (callable : RP.projector)
    (records : list ProfilingsFunctionResult) : bool :=
  match comprehension callable records with
  | Ok _ => true
  | Err _ => false
  end.

(** A caller that calls [add_column] once per entry of [calls], in order,
    and carries on when a call raises. *)
Definition add_columns (calls : list (string * RP.projector)) (p : RP.t) : RP.t :=
  fold_left (fun p call => (RP.add_column call.1 call.2 p).2) calls p.

(** The lengths of the strings of a list, added up. *)
Fixpoint total_length (l : list string) : nat :=
  match l with
  | [] => O
  | x :: xs => (String.length x + total_length xs)%nat
  end.

(** ** Strings *)

Section Strings.

Lemma str_app_cons a (s1 s2 : string) :
  String a s1 +:+ s2 = String a (s1 +:+ s2).
Proof. reflexivity. Qed.

Lemma str_app_nil_r (s : string) : s +:+ EmptyString = s.
Proof. induction s as [|a s IH]; [done|]. by rewrite str_app_cons, IH. Qed.

Lemma str_app_assoc (s1 s2 s3 : string) :
  (s1 +:+ s2) +:+ s3 = s1 +:+ (s2 +:+ s3).
Proof. induction s1 as [|a s1 IH]; [done|]. by rewrite !str_app_cons, IH. Qed.

Lemma str_app_length (s1 s2 : string) :
  String.length (s1 +:+ s2) = (String.length s1 + String.length s2)%nat.
Proof.
  induction s1 as [|a s1 IH]; [done|]. rewrite str_app_cons. cbn. by rewrite IH.
Qed.

Lemma repeat_char_length fill n : String.length (repeat_char fill n) = n.
Proof. induction n as [|n IH]; [done|]. cbn. by rewrite IH. Qed.

Lemma count_char_app c s1 s2 :
  count_char c (s1 +:+ s2) = (count_char c s1 + count_char c s2)%nat.
Proof.
  induction s1 as [|a s1 IH]; [done|]. rewrite str_app_cons. cbn. rewrite IH. lia.
Qed.

Lemma count_char_repeat c fill n :
  fill ≠ c -> count_char c (repeat_char fill n) = O.
Proof.
  intros Hne. induction n as [|n IH]; [done|].
  cbn. rewrite IH. by destruct (decide (fill = c)).
Qed.

(** [ljust] in one equation: the text, then the missing fill. *)
Lemma ljust_eq s width fill :
  ljust s width fill
  = s +:+ repeat_char fill (Z.to_nat width - String.length s).
Proof.
  unfold ljust. destruct (Z.geb_spec (Z.of_nat (String.length s)) width) as [H|H].
  - replace (Z.to_nat width - String.length s)%nat with O by lia.
    cbn. by rewrite str_app_nil_r.
  - do 2 f_equal. lia.
Qed.

Lemma ljust_short s width fill :
  Z.of_nat (String.length s) < width ->
  Z.of_nat (String.length (ljust s width fill)) = width.
Proof.
  intros H. rewrite ljust_eq, str_app_length, repeat_char_length. lia.
Qed.

Lemma ljust_long s width fill :
  width <= Z.of_nat (String.length s) -> ljust s width fill = s.
Proof.
  intros H. unfold ljust.
  destruct (Z.geb_spec (Z.of_nat (String.length s)) width); [done | lia].
Qed.

Lemma fold_left_lines {A} (f : A -> string) (l : list A) (acc : string) :
  fold_left (fun result x => result +:+ f x) l acc
  = acc +:+ concat_lines (map f l).
Proof.
  revert acc. induction l as [|x l IH]; intros acc; cbn.
  - by rewrite str_app_nil_r.
  - by rewrite IH, str_app_assoc.
Qed.

End Strings.

(** ** List comprehensions *)

Section Comprehension.

Context {A B : Type} (f : A -> result B).

(** A comprehension returns exactly when every element evaluates, and
    then holds the values in the order of the elements. *)
Lemma comprehension_Ok (l : list A) (ys : list B) :
  comprehension f l = Ok ys <-> Forall2 (fun x y => f x = Ok y) l ys.
Proof.
  revert ys. induction l as [|x l IH]; intros ys; cbn.
  - split.
    + intros [= <-]. constructor.
    + intros H. by inversion H.
  - destruct (f x) as [y|e] eqn:Hfx; cbn.
    + destruct (comprehension f l) as [ys'|e] eqn:Hl; cbn.
      * split.
        -- intros [= <-]. constructor; [done|]. by apply IH.
        -- intros H. inversion H as [|? y' ? ys'' Hy Hys]; subst.
           apply IH in Hys. congruence.
      * split; [done|].
        intros H. inversion H as [|? y' ? ys'' Hy Hys]; subst.
        apply IH in Hys. congruence.
    + split; [done|].
      intros H. inversion H; subst. congruence.
Qed.

Lemma comprehension_total (l : list A) :
  (forall x, x ∈ l -> is_ok (f x)) ->
  exists ys, comprehension f l = Ok ys.
Proof.
  induction l as [|x l IH]; intros Hall; cbn; [by eexists|].
  assert (is_ok (f x)) as Hx by (apply Hall; left).
  destruct (f x) as [y|e]; [|done]. cbn.
  destruct IH as [ys ->]; [intros; apply Hall; by right|].
  cbn. by eexists.
Qed.

Lemma comprehension_Err_first (l1 : list A) (x : A) (l2 : list A) (e : exn) :
  (forall a, a ∈ l1 -> is_ok (f a)) -> f x = Err e ->
  comprehension f (l1 ++ x :: l2) = Err e.
Proof.
  intros Hok Hx. induction l1 as [|a l1 IH]; cbn.
  - by rewrite Hx.
  - assert (is_ok (f a)) as Ha by (apply Hok; left).
    destruct (f a) as [y|]; [|done]. cbn.
    rewrite IH; [done|]. intros; apply Hok; by right.
Qed.

(** A comprehension raises what its first failing element raises. *)
Lemma comprehension_Err (l : list A) (e : exn) :
  comprehension f l = Err e <->
  exists l1 x l2,
    l = l1 ++ x :: l2 /\ (forall a, a ∈ l1 -> is_ok (f a)) /\ f x = Err e.
Proof.
  split.
  - induction l as [|x l IH]; cbn; [done|].
    destruct (f x) as [y|e'] eqn:Hfx; cbn.
    + destruct (comprehension f l) as [ys|e''] eqn:Hl; cbn; [done|].
      intros [= ->]. destruct (IH eq_refl) as (l1 & x' & l2 & -> & Hok & Hx').
      exists (x :: l1), x', l2. split_and!; [done| |done].
      intros a [->|Ha]%elem_of_cons; [by rewrite Hfx | by apply Hok].
    + intros [= ->]. exists [], x, l. split_and!; [done| |done].
      intros a Ha. by apply elem_of_nil in Ha.
  - intros (l1 & x & l2 & -> & Hok & Hx). by apply comprehension_Err_first.
Qed.

Lemma comprehension_fails (l : list A) (x : A) :
  x ∈ l -> ~ is_ok (f x) -> exists e, comprehension f l = Err e.
Proof.
  intros Hin Hx. destruct (comprehension f l) as [ys|e] eqn:Hl; [|by eexists].
  apply comprehension_Ok in Hl.
  destruct (proj1 (list_elem_of_lookup _ _) Hin) as [i Hi].
  destruct (Forall2_lookup_l _ _ _ _ _ Hl Hi) as (y & _ & Hy).
  rewrite Hy in Hx. by destruct Hx.
Qed.

End Comprehension.

Lemma comprehension_length {A B} (f : A -> result B) l ys :
  comprehension f l = Ok ys -> length ys = length l.
Proof. intros H%comprehension_Ok. symmetry. by eapply Forall2_length. Qed.

(** ** The dataclass constructor *)

Lemma elem_of_fields (k : string) :
  k ∈ fields <-> k = "name" \/ k = "total_time" \/ k = "count" \/ k = "children".
Proof. unfold fields, field_names. set_solver. Qed.

(** The keywords are exactly the four fields when none is foreign and each
    field is present. *)
Lemma exact_fields (kwargs : gmap string Value) :
  dom kwargs = fields <->
  dom kwargs ⊆ fields /\
  is_Some (kwargs !! "name") /\ is_Some (kwargs !! "total_time") /\
  is_Some (kwargs !! "count") /\ is_Some (kwargs !! "children").
Proof.
  rewrite <- !elem_of_dom. split.
  - intros ->. split; [done|]. rewrite !elem_of_fields. naive_solver.
  - intros (Hsub & Hn & Ht & Hc & Hch). apply set_eq. intros k. split.
    + apply Hsub.
    + rewrite elem_of_fields. naive_solver.
Qed.

Lemma ProfilingsFunctionResult_init_Ok kwargs r :
  ProfilingsFunctionResult_init kwargs = Ok r <->
  dom kwargs = fields /\
  kwargs !! "name" = Some (name r) /\
  kwargs !! "total_time" = Some (total_time r) /\
  kwargs !! "count" = Some (count r) /\
  kwargs !! "children" = Some (children r).
Proof.
  unfold ProfilingsFunctionResult_init. fold fields. split.
  - destruct (decide (dom kwargs ⊆ fields)) as [Hsub|]; [|done].
    destruct (kwargs !! "name") as [n|] eqn:Hn; [|done].
    destruct (kwargs !! "total_time") as [t|] eqn:Ht; [|done].
    destruct (kwargs !! "count") as [c|] eqn:Hc; [|done].
    destruct (kwargs !! "children") as [ch|] eqn:Hch; [|done].
    intros [= <-]. cbn. split; [|done].
    apply exact_fields. rewrite Hn, Ht, Hc, Hch. eauto.
  - intros (Hdom & -> & -> & -> & ->).
    rewrite decide_True by (by rewrite Hdom). by destruct r.
Qed.

Lemma ProfilingsFunctionResult_init_Err kwargs :
  dom kwargs ≠ fields <-> ProfilingsFunctionResult_init kwargs = Err TypeError.
Proof.
  rewrite exact_fields. unfold ProfilingsFunctionResult_init. fold fields.
  destruct (decide (dom kwargs ⊆ fields)) as [Hsub|Hsub]; [|naive_solver].
  destruct (kwargs !! "name") as [n|]; [|split; [done|]; intros _ (_ & [? [=]] & _)].
  destruct (kwargs !! "total_time") as [t|]; [|split; [done|]; intros _ (_ & _ & [? [=]] & _)].
  destruct (kwargs !! "count") as [c|]; [|split; [done|]; intros _ (_ & _ & _ & [? [=]] & _)].
  destruct (kwargs !! "children") as [ch|]; [|split; [done|]; intros _ (_ & _ & _ & _ & [? [=]])].
  split; [|done]. intros H. destruct H. eauto 10.
Qed.

Lemma ProfilingsFunctionResult_init_raises kwargs e :
  ProfilingsFunctionResult_init kwargs = Err e -> e = TypeError.
Proof.
  unfold ProfilingsFunctionResult_init. repeat case_match; congruence.
Qed.

(** ** Construction of the table builder *)

Lemma index_Ok {A} (l : list A) i x : index l i = Ok x <-> l !! i = Some x.
Proof. unfold index. destruct (l !! i); naive_solver. Qed.

(** A loop over the indices of a list that reads the list at each index
    visits its elements in order. *)
Lemma comprehension_indices {A B} (g : A -> result B) (pre l : list A) :
  comprehension (fun j => try c <- index (pre ++ l) j in g c)
                (seq (length pre) (length l))
  = comprehension g l.
Proof.
  revert pre. induction l as [|x l IH]; intros pre; [done|].
  cbn [length seq comprehension].
  unfold index at 1. rewrite list_lookup_middle by done. cbn [bind].
  specialize (IH (pre ++ [x])).
  rewrite <- List.app_assoc, length_app, Nat.add_1_r in IH. cbn in IH.
  by rewrite IH.
Qed.

Lemma row_at_eq column_datas i :
  TB.row_at column_datas i
  = comprehension (fun c => index (column_data c) i) column_datas.
Proof. apply (comprehension_indices _ [] column_datas). Qed.

(** The row at index [i] holds the cell at index [i] of every column, in
    column order. *)
Lemma row_at_Ok column_datas i row :
  TB.row_at column_datas i = Ok row <->
  Forall2 (fun c v => column_data c !! i = Some v) column_datas row.
Proof.
  rewrite row_at_eq, comprehension_Ok.
  split; intros H; eapply Forall2_impl; try exact H;
    intros c v; by rewrite index_Ok.
Qed.

Lemma init_inv column_datas column_width b :
  TB.init column_datas column_width = Ok b ->
  exists c0,
    column_datas !! 0%nat = Some c0 /\
    TB.column_datas b = column_datas /\
    TB.column_width b = column_width /\
    Forall2 (fun i row =>
               Forall2 (fun c v => column_data c !! i = Some v) column_datas row)
            (seq 0 (length (column_data c0))) (TB.row_datas b).
Proof.
  unfold TB.init, index.
  destruct (column_datas !! 0%nat) as [c0|] eqn:H0; [|done]. cbn.
  destruct (comprehension _ _) as [rows|] eqn:Hrows; [|done]. cbn.
  intros [= <-]. exists c0. split_and!; [done..|]. cbn.
  apply comprehension_Ok in Hrows.
  eapply Forall2_impl; [exact Hrows|]. intros i row. by rewrite row_at_Ok.
Qed.

(** Columns of one length, at least one of them, always make a builder. *)
Lemma init_rectangular column_datas column_width n :
  column_datas ≠ [] ->
  Forall (fun c => length (column_data c) = n) column_datas ->
  exists b,
    TB.init column_datas column_width = Ok b /\
    length (TB.row_datas b) = n.
Proof.
  intros Hne Hlen. unfold TB.init, index.
  destruct column_datas as [|c0 cols]; [done|]. cbn [lookup list_lookup bind].
  assert (length (column_data c0) = n) as -> by (by inversion Hlen).
  destruct (comprehension_total (TB.row_at (c0 :: cols)) (seq 0 n)) as [rows Hrows].
  { intros i Hi%elem_of_seq. rewrite row_at_eq.
    destruct (comprehension_total (fun c => index (column_data c) i) (c0 :: cols))
      as [row ->]; [|done].
    intros c Hc. rewrite Forall_forall in Hlen. specialize (Hlen c Hc).
    unfold index. destruct (lookup_lt_is_Some_2 (column_data c) i) as [v ->]; [lia|done]. }
  rewrite Hrows. cbn. eexists. split; [done|]. cbn.
  apply comprehension_length in Hrows. by rewrite Hrows, length_seq.
Qed.

(** ** Printers in use *)

Lemma init_Some_Ok raws p :
  RP.init (Some raws) = Ok p <->
  comprehension ProfilingsFunctionResult_init raws = Ok (RP.profiling_results p) /\
  RP.column_datas p
  = [ {| column_name := "func";
         column_data := map name (RP.profiling_results p) |} ].
Proof.
  cbn. destruct (comprehension _ raws) as [results|e]; cbn.
  - split.
    + by intros [= <-].
    + intros [[= ->] Hc]. destruct p; cbn in *. by rewrite Hc.
  - split; [done|]. by intros [? _].
Qed.

(** Every column of a printer in use has one cell per record, and the
    first column is always there. *)
Lemma reachable_rectangular p :
  reachable p ->
  RP.column_datas p ≠ [] /\
  Forall (fun c => length (column_data c) = length (RP.profiling_results p))
         (RP.column_datas p).
Proof.
  induction 1 as [raws p Hinit|p column_name callable Hp [Hne Hlen]].
  - apply init_Some_Ok in Hinit as [_ ->]. split; [done|].
    repeat constructor. cbn. by rewrite length_map.
  - unfold RP.add_column.
    destruct (comprehension _ _) as [data|e] eqn:Hdata; cbn; [|done].
    split; [by destruct (RP.column_datas p)|].
    apply Forall_app. split; [done|]. repeat constructor. cbn.
    by eapply comprehension_length.
Qed.

(** ** Lines of the table *)

Lemma count_char_ljust c s width fill :
  fill ≠ c -> count_char c (ljust s width fill) = count_char c s.
Proof.
  intros Hne. rewrite ljust_eq, count_char_app, count_char_repeat by done. lia.
Qed.

Lemma count_char_join c sep (l : list string) :
  count_char c sep = O ->
  (forall x, x ∈ l -> count_char c x = O) ->
  count_char c (join sep l) = O.
Proof.
  intros Hsep. induction l as [|x l IH]; intros Hall; [done|].
  assert (count_char c x = O) as Hx by (apply Hall; left).
  assert (count_char c (join sep l) = O) as Hl by (apply IH; intros; apply Hall; by right).
  destruct l as [|x' l]; [done|].
  change (join sep (x :: x' :: l)) with (x +:+ sep +:+ join sep (x' :: l)).
  rewrite !count_char_app. lia.
Qed.

Lemma body_lines (b : TB.t) :
  TB.column_datas b ≠ [] ->
  TB.generate_result_row_by_row b
  = concat_lines (map (TB.row_line b) (TB.row_datas b)).
Proof.
  intros Hne. unfold TB.generate_result_row_by_row.
  destruct (TB.column_datas b); [done|]. cbn [length Nat.eqb].
  by rewrite fold_left_lines.
Qed.

(** ** Lookup *)

Lemma eq_str_true v s : eq_str v s = true <-> v = VStr s.
Proof.
  destruct v; cbn; try (split; congruence).
  rewrite bool_decide_eq_true. split; congruence.
Qed.

(** The head of a filtered list is the first element that passes. *)
Lemma filter_head {A} (f : A -> bool) (l : list A) (x : A) (rest : list A) :
  List.filter f l = x :: rest <->
  exists l1 l2,
    l = l1 ++ x :: l2 /\ f x = true /\
    (forall a, a ∈ l1 -> f a = false) /\ rest = List.filter f l2.
Proof.
  induction l as [|a l IH]; cbn.
  - split; [done|]. intros (l1 & l2 & Hl & _). by destruct l1.
  - destruct (f a) eqn:Hfa.
    + split.
      * intros [= -> <-]. exists [], l. split_and!; try done.
        intros a Ha. by apply elem_of_nil in Ha.
      * intros ([|a' l1] & l2 & Hl & Hx & Hno & ->); simplify_eq/=; [done|].
        specialize (Hno a' ltac:(left)). congruence.
    + rewrite IH. split.
      * intros (l1 & l2 & -> & Hx & Hno & ->). exists (a :: l1), l2.
        split_and!; try done.
        intros a' [->|Ha]%elem_of_cons; [done | by apply Hno].
      * intros ([|a' l1] & l2 & Hl & Hx & Hno & ->); simplify_eq/=; [congruence|].
        exists l1, l2. split_and!; try done. intros; apply Hno; by right.
Qed.

Lemma filter_none {A} (f : A -> bool) (l : list A) :
  List.filter f l = [] <-> forall a, a ∈ l -> f a = false.
Proof.
  induction l as [|a l IH]; cbn.
  - split; [|done]. intros _ a Ha. by apply elem_of_nil in Ha.
  - destruct (f a) eqn:Hfa.
    + split; [done|]. intros H. specialize (H a ltac:(left)). congruence.
    + rewrite IH. split.
      * intros H a' [->|Ha]%elem_of_cons; [done | by apply H].
      * intros H a' Ha. apply H. by right.
Qed.

(** * The claims *)

(** C1.  Example 1: for the single record named "f" (total time 1.5, count
    2, no children), with no added column and a column width of 5, the
    header is "| func  |", the separator "| ----- |" and the body
    "| f     |", each ended by a line break, and the table is the three in
    that order. *)
Theorem C1_example_width_5 :
  exists p b,
    RP.init (Some [raw_f]) = Ok p /\
    RP.profiling_results p = [record_f] /\
    TB.init (RP.column_datas p) 5 = Ok b /\
    TB.generate_header b = "| func  |" +:+ newline /\
    TB.generate_horizontal_lines b = "| ----- |" +:+ newline /\
    TB.generate_result_row_by_row b = "| f     |" +:+ newline /\
    TB.generate_table_str b
    = ("| func  |" +:+ newline)
      +:+ ("| ----- |" +:+ newline)
      +:+ ("| f     |" +:+ newline).
Proof.
  eexists _, _. split_and!; [vm_compute; reflexivity..].
Qed.

(** C2.  For every printer in use (any records, any columns added) and any
    column width, the builder is made without error and the table is the
    header, then the separator, then the body.  The header and the
    separator each end with a line break; the separator holds no other one,
    and neither does the header when no column name holds one.  The body is
    one line per record, so with no record the table is the header and the
    separator alone. *)
Theorem C2_table_is_header_separator_body p column_width :
  reachable p ->
  exists b,
    TB.init (RP.column_datas p) column_width = Ok b /\
    RP.print_result p column_width = Ok (TB.generate_table_str b +:+ newline) /\
    TB.generate_table_str b
    = TB.generate_header b
      +:+ TB.generate_horizontal_lines b
      +:+ TB.generate_result_row_by_row b /\
    (exists h,
        TB.generate_header b = h +:+ newline /\
        ((forall c, c ∈ RP.column_datas p -> count_char nl (column_name c) = O) ->
         count_char nl h = O)) /\
    (exists s,
        TB.generate_horizontal_lines b = s +:+ newline /\
        count_char nl s = O) /\
    TB.generate_result_row_by_row b
    = concat_lines (map (TB.row_line b) (TB.row_datas b)) /\
    length (TB.row_datas b) = length (RP.profiling_results p).
Proof.
  intros [Hne Hlen]%reachable_rectangular.
  destruct (init_rectangular _ column_width _ Hne Hlen) as (b & Hb & Hrows).
  destruct (init_inv _ _ _ Hb) as (c0 & _ & Hcols & Hw & _).
  exists b. split_and!; try done.
  - unfold RP.print_result. by rewrite Hb.
  - eexists. split.
    + unfold TB.generate_header. rewrite <- !str_app_assoc. reflexivity.
    + intros Hnames. rewrite !count_char_app.
      rewrite count_char_join; [done..|].
      intros x (c & -> & Hc)%list_elem_of_fmap.
      rewrite count_char_ljust by done. apply Hnames. by rewrite <- Hcols.
  - eexists. split.
    + unfold TB.generate_horizontal_lines. rewrite <- !str_app_assoc. reflexivity.
    + rewrite !count_char_app.
      rewrite count_char_join; [done..|].
      intros x (c & -> & Hc)%list_elem_of_fmap.
      by rewrite count_char_ljust.
  - apply body_lines. by rewrite Hcols.
Qed.

Lemma C2_witness :
  reachable (RP.add_column "calls" (fun r => Ok (count r))
               {| RP.profiling_results := [record_f];
                  RP.column_datas :=
                    [ {| column_name := "func"; column_data := [VStr "f"] |} ] |}).2
  /\ exists b,
       TB.init [ {| column_name := "func"; column_data := [VStr "f"] |};
                 {| column_name := "calls"; column_data := [VInt 2] |} ] 7 = Ok b
       /\ TB.generate_table_str b
          = TB.generate_header b
            +:+ TB.generate_horizontal_lines b
            +:+ TB.generate_result_row_by_row b.
Proof.
  assert (reachable (RP.add_column "calls" (fun r => Ok (count r))
               {| RP.profiling_results := [record_f];
                  RP.column_datas :=
                    [ {| column_name := "func"; column_data := [VStr "f"] |} ] |}).2)
    as Hreach.
  { apply reachable_add_column. apply (reachable_init [raw_f]).
    vm_compute. reflexivity. }
  split; [exact Hreach|].
  destruct (C2_table_is_header_separator_body _ 7 Hreach)
    as (b & Hb & _ & Htable & _).
  exists b. split; [exact Hb | exact Htable].
Defined.

(** C3.  The builder cannot be made from an empty column sequence: its
    constructor reads the first column to count the rows and raises
    [IndexError].  The body renderer does guard against an empty column
    sequence, and returns the empty string for any builder that has one. *)
Theorem C3_init_without_columns_raises column_width :
  TB.init [] column_width = Err IndexError /\
  forall b, TB.column_datas b = [] ->
            TB.generate_result_row_by_row b = EmptyString.
Proof.
  split; [reflexivity|].
  intros b Hb. unfold TB.generate_result_row_by_row. by rewrite Hb.
Qed.

(** C4.  Lookup by name raises the error of the absent name exactly when no
    record has that very name, and raises nothing else; otherwise it
    returns the first record, in record order, whose name is the given
    one. *)
Theorem C4_getitem_first_match p function_name :
  (RP.getitem p function_name
   = Err (ValueError "The result with specific function name is absent.")
   <-> forall r, r ∈ RP.profiling_results p -> name r ≠ VStr function_name) /\
  (forall e, RP.getitem p function_name = Err e ->
             e = ValueError "The result with specific function name is absent.") /\
  (forall r,
      RP.getitem p function_name = Ok r <->
      exists before after,
        RP.profiling_results p = before ++ r :: after /\
        name r = VStr function_name /\
        forall x, x ∈ before -> name x ≠ VStr function_name).
Proof.
  unfold RP.getitem.
  set (f := fun x => eq_str (name x) function_name).
  assert (forall l : list ProfilingsFunctionResult,
             (forall a, a ∈ l -> f a = false) <->
             (forall a, a ∈ l -> name a ≠ VStr function_name)) as Hfalse.
  { intros l. split; intros H a Ha; specialize (H a Ha).
    - intros Heq%eq_str_true. unfold f in H. congruence.
    - unfold f. destruct (eq_str _ _) eqn:E; [|done]. by apply eq_str_true in E. }
  destruct (List.filter f (RP.profiling_results p)) as [|x rest] eqn:Hfilter.
  - cbn. pose proof (proj1 (filter_none _ _) Hfilter) as Hnone. split_and!.
    + split; [|done]. intros _. by apply Hfalse.
    + by intros e [= <-].
    + intros r. split; [done|].
      intros (before & after & Hl & Hr & _).
      assert (f r = false) as Hfr.
      { apply Hnone. rewrite Hl. apply elem_of_app. right. left. }
      apply eq_str_true in Hr. unfold f in Hfr. congruence.
  - cbn. destruct (proj1 (filter_head _ _ _ _) Hfilter)
      as (l1 & l2 & Hl & Hx & Hno & _).
    split_and!.
    + split; [done|]. intros Hall.
      assert (f x = false) as Hfx.
      { apply Hfalse with (l := RP.profiling_results p); [done|].
        rewrite Hl. apply elem_of_app. right. left. }
      congruence.
    + done.
    + intros r. split.
      * intros [= <-]. exists l1, l2. split_and!; [done| |].
        -- by apply eq_str_true.
        -- by apply Hfalse.
      * intros (before & after & Hl' & Hr & Hbefore).
        assert (List.filter f (RP.profiling_results p)
                = r :: List.filter f after) as Hr'.
        { apply filter_head. exists before, after. split_and!; try done.
          - by apply eq_str_true.
          - by apply Hfalse. }
        congruence.
Qed.

Lemma C4_witness :
  RP.getitem {| RP.profiling_results := [record_f; record_g; record_g'];
                RP.column_datas :=
                  [ {| column_name := "func";
                       column_data := [VStr "f"; VStr "g"; VStr "g"] |} ] |}
             "g"
  = Ok record_g.
Proof.
  apply C4_getitem_first_match. exists [record_f], [record_g'].
  split; [reflexivity|]. split; [reflexivity|].
  intros x Hx. apply list_elem_of_singleton in Hx. rewrite Hx.
  vm_compute. intros [=].
Defined.

(** C5.  From a list of raw records that each supply exactly the fields
    name, total_time, count and children, construction makes one record per
    entry, in the order of the entries, and each record holds the values of
    its entry's four fields. *)
Theorem C5_records_copy_entries (raws : list (gmap string Value)) :
  Forall (fun kwargs => dom kwargs = fields) raws ->
  exists p,
    RP.init (Some raws) = Ok p /\
    length (RP.profiling_results p) = length raws /\
    Forall2 (fun kwargs r =>
               kwargs !! "name" = Some (name r) /\
               kwargs !! "total_time" = Some (total_time r) /\
               kwargs !! "count" = Some (count r) /\
               kwargs !! "children" = Some (children r))
            raws (RP.profiling_results p).
Proof.
  intros Hexact.
  destruct (comprehension_total ProfilingsFunctionResult_init raws)
    as [results Hresults].
  { intros kwargs Hin. rewrite Forall_forall in Hexact.
    specialize (Hexact kwargs Hin). apply exact_fields in Hexact
      as (Hsub & [n Hn] & [t Ht] & [c Hc] & [ch Hch]).
    unfold ProfilingsFunctionResult_init. fold fields.
    rewrite decide_True by done. by rewrite Hn, Ht, Hc, Hch. }
  eexists. split; [cbn; rewrite Hresults; reflexivity|]. cbn.
  split; [by eapply comprehension_length|].
  apply comprehension_Ok in Hresults.
  eapply Forall2_impl; [exact Hresults|].
  intros kwargs r Hr. apply ProfilingsFunctionResult_init_Ok in Hr. tauto.
Qed.

Lemma C5_witness :
  Forall (fun kwargs => dom kwargs = fields) [raw_f] /\
  exists p,
    RP.init (Some [raw_f]) = Ok p /\
    length (RP.profiling_results p) = length [raw_f].
Proof.
  assert (Forall (fun kwargs : gmap string Value => dom kwargs = fields) [raw_f])
    as Hexact.
  { constructor; [|constructor]. vm_compute. reflexivity. }
  split; [exact Hexact|].
  destruct (C5_records_copy_entries [raw_f] Hexact) as (p & Hp & Hlen & _).
  exists p. split; [exact Hp | exact Hlen].
Defined.

(** C6.  Construction from [None] raises the error of the missing list.
    Construction from the empty list returns a printer with no record and
    the single column "func", which is empty.  Whenever construction
    returns, the columns are exactly the one column "func", at index 0,
    holding the names of the records in record order. *)
Theorem C6_init_seeds_func_column :
  RP.init None = Err (ValueError "Profiling results cannot be None.") /\
  RP.init (Some [])
  = Ok {| RP.profiling_results := [];
          RP.column_datas :=
            [ {| column_name := "func"; column_data := [] |} ] |} /\
  forall raws p,
    RP.init (Some raws) = Ok p ->
    RP.column_datas p
    = [ {| column_name := "func";
           column_data := map name (RP.profiling_results p) |} ].
Proof.
  split_and!; [reflexivity..|].
  intros raws p Hp. by apply init_Some_Ok in Hp as [_ ->].
Qed.

Lemma C6_witness :
  exists p,
    RP.init (Some [raw_f]) = Ok p /\
    RP.column_datas p
    = [ {| column_name := "func";
           column_data := map name (RP.profiling_results p) |} ].
Proof.
  eexists. split; [vm_compute; reflexivity|].
  destruct C6_init_seeds_func_column as (_ & _ & Hseed).
  apply (Hseed [raw_f]). vm_compute. reflexivity.
Defined.

(** C7.  Construction raises the error of the dataclass constructor when
    some raw record lacks one of the four fields or carries a key that is
    none of them. *)
Theorem C7_malformed_entry_raises (raws : list (gmap string Value)) kwargs :
  kwargs ∈ raws ->
  (exists k, k ∈ field_names /\ kwargs !! k = None) \/
  (exists k, (k ∉ field_names) /\ is_Some (kwargs !! k)) ->
  RP.init (Some raws) = Err TypeError.
Proof.
  intros Hin Hbad.
  assert (dom kwargs ≠ fields) as Hdom.
  { intros Heq. destruct Hbad as [(k & Hk & Hnone)|(k & Hk & Hsome)].
    - assert (k ∈ dom kwargs) as Hd by (rewrite Heq; unfold fields; set_solver).
      apply elem_of_dom in Hd as [v Hv]. congruence.
    - apply elem_of_dom in Hsome. rewrite Heq in Hsome.
      unfold fields in Hsome. set_solver. }
  apply ProfilingsFunctionResult_init_Err in Hdom.
  destruct (comprehension_fails ProfilingsFunctionResult_init raws kwargs Hin)
    as [e He]; [rewrite Hdom; intros []|].
  cbn. rewrite He. cbn. f_equal.
  apply comprehension_Err in He as (_ & bad & _ & _ & _ & Hraise).
  by eapply ProfilingsFunctionResult_init_raises.
Qed.

Lemma C7_witness :
  RP.init (Some [raw_f; (delete "count" raw_f); (<["extra" := VInt 1]> raw_f)])
  = Err TypeError.
Proof.
  apply (C7_malformed_entry_raises _ (delete "count" raw_f)).
  - apply elem_of_cons. right. apply elem_of_cons. left. reflexivity.
  - left. exists "count". split; [|vm_compute; reflexivity].
    unfold field_names. rewrite !elem_of_cons. right. right. left. reflexivity.
Defined.

(** C8.  When the projector returns for every record, [add_column] returns
    and appends exactly one column: it has the given name, its cells are
    the projector's values for the records in record order, one per record
    (none when there is no record), and every column that was there keeps
    its index and its content. *)
Theorem C8_add_column_appends_one_column p column_name (callable : RP.projector) :
  (forall r, r ∈ RP.profiling_results p -> is_ok (callable r)) ->
  exists data,
    RP.add_column column_name callable p
    = (Ok tt,
       {| RP.profiling_results := RP.profiling_results p;
          RP.column_datas :=
            RP.column_datas p
            ++ [ {| column_name := column_name; column_data := data |} ] |}) /\
    Forall2 (fun r v => callable r = Ok v) (RP.profiling_results p) data /\
    length data = length (RP.profiling_results p) /\
    length (RP.column_datas (RP.add_column column_name callable p).2)
    = S (length (RP.column_datas p)) /\
    forall i c,
      RP.column_datas p !! i = Some c ->
      RP.column_datas (RP.add_column column_name callable p).2 !! i = Some c.
Proof.
  intros Hok.
  destruct (comprehension_total callable (RP.profiling_results p) Hok)
    as [data Hdata].
  exists data. unfold RP.add_column. rewrite Hdata. cbn.
  split_and!.
  - done.
  - by apply comprehension_Ok.
  - by eapply comprehension_length.
  - rewrite length_app. cbn. lia.
  - intros i c Hc. by apply lookup_app_l_Some.
Qed.

Lemma C8_witness :
  exists data,
    RP.add_column "calls" (fun r => Ok (count r))
      {| RP.profiling_results := [record_f];
         RP.column_datas :=
           [ {| column_name := "func"; column_data := [VStr "f"] |} ] |}
    = (Ok tt,
       {| RP.profiling_results := [record_f];
          RP.column_datas :=
            [ {| column_name := "func"; column_data := [VStr "f"] |} ]
            ++ [ {| column_name := "calls"; column_data := data |} ] |})
    /\ length data = 1%nat.
Proof.
  destruct (C8_add_column_appends_one_column
              {| RP.profiling_results := [record_f];
                 RP.column_datas :=
                   [ {| column_name := "func"; column_data := [VStr "f"] |} ] |}
              "calls" (fun r => Ok (count r)))
    as (data & Hadd & _ & Hlen & _).
  { intros r _. exact I. }
  exists data. split; [exact Hadd | exact Hlen].
Defined.

(** C9.  Every body line is "| ", the cells of its row joined by " | ",
    and " |" with a line break, one cell per column.  A cell is the text
    [str()] gives for the value: when the text is shorter than the column
    width it is followed by spaces up to exactly the width, and when it is
    as long as the width or longer it is the whole text, with nothing cut
    and nothing added. *)
Theorem C9_cells_padded_never_cut column_datas column_width b :
  TB.init column_datas column_width = Ok b ->
  TB.generate_result_row_by_row b
  = concat_lines
      (map (fun row =>
              "| "
              +:+ join " | "
                    (map (fun v => ljust (py_str v) column_width " ") row)
              +:+ " |" +:+ newline)
           (TB.row_datas b)) /\
  Forall (fun row => length row = length column_datas) (TB.row_datas b) /\
  forall v,
    (Z.of_nat (String.length (py_str v)) < column_width ->
     ljust (py_str v) column_width " "
     = py_str v
       +:+ repeat_char " " (Z.to_nat column_width - String.length (py_str v)) /\
     Z.of_nat (String.length (ljust (py_str v) column_width " ")) = column_width) /\
    (column_width <= Z.of_nat (String.length (py_str v)) ->
     ljust (py_str v) column_width " " = py_str v).
Proof.
  intros Hb. destruct (init_inv _ _ _ Hb) as (c0 & H0 & Hcols & Hw & Hrows).
  split_and!.
  - rewrite body_lines.
    + unfold TB.row_line. by rewrite Hw.
    + rewrite Hcols. by destruct column_datas.
  - apply Forall2_Forall_r with (1 := Hrows). apply Forall_forall.
    intros i _ row Hrow. symmetry. by eapply Forall2_length.
  - intros v. split.
    + intros Hshort. split; [apply ljust_eq | by apply ljust_short].
    + apply ljust_long.
Qed.

Lemma C9_witness :
  exists b,
    TB.init [ {| column_name := "func";
                 column_data := [VStr "f"; VStr "a_long_name"] |} ] 5 = Ok b /\
    TB.generate_result_row_by_row b
    = ("| f     |" +:+ newline) +:+ ("| a_long_name |" +:+ newline) /\
    Z.of_nat (String.length (ljust (py_str (VStr "f")) 5 " ")) = 5 /\
    ljust (py_str (VStr "a_long_name")) 5 " " = "a_long_name".
Proof.
  eexists. split; [vm_compute; reflexivity|].
  split; [vm_compute; reflexivity|].
  destruct (C9_cells_padded_never_cut
              [ {| column_name := "func";
                   column_data := [VStr "f"; VStr "a_long_name"] |} ] 5 _ eq_refl)
    as (_ & _ & Hcell).
  split.
  - apply (Hcell (VStr "f")). vm_compute. reflexivity.
  - apply (Hcell (VStr "a_long_name")). vm_compute. intros [=].
Defined.

(** C10.  When the projector raises on some record, [add_column] raises
    what the projector raised on the first such record and leaves the
    printer as it was: no column is appended, not even one holding the
    cells computed before the failure. *)
Theorem C10_add_column_failure_appends_nothing
    p column_name (callable : RP.projector) r :
  r ∈ RP.profiling_results p ->
  ~ is_ok (callable r) ->
  exists e,
    RP.add_column column_name callable p = (Err e, p) /\
    exists before r' after,
      RP.profiling_results p = before ++ r' :: after /\
      (forall a, a ∈ before -> is_ok (callable a)) /\
      callable r' = Err e.
Proof.
  intros Hin Hfail.
  destruct (comprehension_fails callable _ r Hin Hfail) as [e He].
  exists e. unfold RP.add_column. rewrite He. split; [done|].
  by apply comprehension_Err.
Qed.

Lemma C10_witness :
  exists e, RP.add_column "per call" per_call printer_fg = (Err e, printer_fg).
Proof.
  destruct (C10_add_column_failure_appends_nothing
              printer_fg "per call" per_call record_g)
    as (e & Hadd & _).
  - apply elem_of_cons. right. apply elem_of_cons. left. reflexivity.
  - vm_compute. intros [].
  - exists e. exact Hadd.
Defined.

(** * Further properties of the module *)

(** ** The builder's constructor *)

Lemma init_raises column_datas column_width e :
  TB.init column_datas column_width = Err e -> e = IndexError.
Proof.
  unfold TB.init, index.
  destruct (column_datas !! 0%nat) as [c0|]; cbn; [|congruence].
  destruct (comprehension _ _) as [rows|e'] eqn:Hrows; cbn; [done|].
  intros [= ->].
  apply comprehension_Err in Hrows as (_ & i & _ & _ & _ & Hrow).
  rewrite row_at_eq in Hrow.
  apply comprehension_Err in Hrow as (_ & c & _ & _ & _ & Hcell).
  unfold index in Hcell. destruct (column_data c !! i); congruence.
Qed.

(** Columns that are all at least as long as the first one make a builder. *)
Lemma init_covering column_datas column_width c0 :
  head column_datas = Some c0 ->
  Forall (fun c => (length (column_data c0) <= length (column_data c))%nat)
         column_datas ->
  is_ok (TB.init column_datas column_width).
Proof.
  intros Hhead Hlen. unfold TB.init, index.
  destruct column_datas as [|c cols]; [done|]. cbn in Hhead.
  injection Hhead as ->. cbn [lookup list_lookup bind].
  destruct (comprehension_total (TB.row_at (c0 :: cols))
              (seq 0 (length (column_data c0)))) as [rows ->]; [|done].
  intros i Hi%elem_of_seq. rewrite row_at_eq.
  destruct (comprehension_total (fun c => index (column_data c) i) (c0 :: cols))
    as [row ->]; [|done].
  intros c Hc. rewrite Forall_forall in Hlen. specialize (Hlen c Hc).
  unfold index.
  destruct (lookup_lt_is_Some_2 (column_data c) i) as [v ->]; [lia|done].
Qed.

(** X1.  The rows of a builder are its columns transposed: there are as
    many rows as the first column has cells, every row has one cell per
    column, and the cell of row [i] under column [j] is cell [i] of column
    [j]. *)
Theorem X1_rows_are_transposed_columns column_datas column_width b :
  TB.init column_datas column_width = Ok b ->
  TB.column_datas b = column_datas /\
  TB.column_width b = column_width /\
  exists c0,
    head column_datas = Some c0 /\
    length (TB.row_datas b) = length (column_data c0) /\
    forall i row,
      TB.row_datas b !! i = Some row ->
      length row = length column_datas /\
      forall j c,
        column_datas !! j = Some c ->
        exists v, row !! j = Some v /\ column_data c !! i = Some v.
Proof.
  intros Hb. destruct (init_inv _ _ _ Hb) as (c0 & H0 & Hcols & Hw & Hrows).
  split_and!; [done..|]. exists c0. split_and!.
  - by rewrite head_lookup.
  - apply Forall2_length in Hrows. by rewrite length_seq in Hrows.
  - intros i row Hrow.
    destruct (Forall2_lookup_r _ _ _ _ _ Hrows Hrow) as (i' & Hi' & Hcells).
    apply lookup_seq in Hi' as [-> _]. cbn in Hcells. split.
    + symmetry. by eapply Forall2_length.
    + intros j c Hc.
      destruct (Forall2_lookup_l _ _ _ _ _ Hcells Hc) as (v & Hv & Hcell).
      by exists v.
Qed.

Lemma X1_witness :
  exists b,
    TB.init [ {| column_name := "func"; column_data := [VStr "f"; VStr "g"] |};
              {| column_name := "calls"; column_data := [VInt 2; VInt 0] |} ] 9
    = Ok b /\
    length (TB.row_datas b) = 2%nat.
Proof.
  eexists. split; [vm_compute; reflexivity|].
  destruct (X1_rows_are_transposed_columns
              [ {| column_name := "func"; column_data := [VStr "f"; VStr "g"] |};
                {| column_name := "calls"; column_data := [VInt 2; VInt 0] |} ]
              9 _ eq_refl) as (_ & _ & c0 & Hhead & Hlen & _).
  injection Hhead as <-. exact Hlen.
Defined.

(** X2.  The builder's constructor returns exactly when there is a first
    column and no column has fewer cells than it; otherwise it raises
    [IndexError], and it raises nothing else.  Columns longer than the
    first are accepted. *)
Theorem X2_init_needs_no_column_shorter_than_first column_datas column_width :
  (is_ok (TB.init column_datas column_width) <->
   exists c0,
     head column_datas = Some c0 /\
     Forall (fun c => (length (column_data c0) <= length (column_data c))%nat)
            column_datas) /\
  (forall e, TB.init column_datas column_width = Err e -> e = IndexError).
Proof.
  split; [|apply init_raises]. split.
  - destruct (TB.init column_datas column_width) as [b|] eqn:Hb; [|done].
    intros _. destruct (init_inv _ _ _ Hb) as (c0 & H0 & _ & _ & Hrows).
    exists c0. split; [by rewrite head_lookup|].
    apply Forall_forall. intros c Hc.
    destruct (length (column_data c0)) as [|n] eqn:Hn; [lia|].
    apply list_elem_of_lookup in Hc as [j Hj].
    assert (seq 0 (S n) !! n = Some n) as Hlast by (apply lookup_seq; lia).
    destruct (Forall2_lookup_l _ _ _ _ _ Hrows Hlast) as (row & _ & Hcells).
    destruct (Forall2_lookup_l _ _ _ _ _ Hcells Hj) as (v & _ & Hv).
    apply lookup_lt_Some in Hv. lia.
  - intros (c0 & Hhead & Hlen). by eapply init_covering.
Qed.

(** ** The width of the lines *)

Lemma ljust_length s width fill :
  String.length (ljust s width fill)
  = Nat.max (String.length s) (Z.to_nat width).
Proof. rewrite ljust_eq, str_app_length, repeat_char_length. lia. Qed.

Lemma join_length sep (l : list string) :
  String.length (join sep l)
  = (total_length l + String.length sep * (length l - 1))%nat.
Proof.
  induction l as [|x l IH]; [cbn; lia|].
  destruct l as [|x' l].
  - cbn. lia.
  - change (join sep (x :: x' :: l)) with (x +:+ sep +:+ join sep (x' :: l)).
    rewrite !str_app_length, IH. cbn [total_length length]. lia.
Qed.

Lemma total_length_ge {A} (f : A -> string) (l : list A) k :
  (forall x, x ∈ l -> (k <= String.length (f x))%nat) ->
  (length l * k <= total_length (map f l))%nat.
Proof.
  induction l as [|x l IH]; intros Hall; cbn; [lia|].
  assert (k <= String.length (f x))%nat by (apply Hall; left).
  assert (length l * k <= total_length (map f l))%nat
    by (apply IH; intros; apply Hall; by right).
  lia.
Qed.

Lemma total_length_eq {A} (f : A -> string) (l : list A) k :
  (forall x, x ∈ l -> String.length (f x) = k) ->
  total_length (map f l) = (length l * k)%nat.
Proof.
  induction l as [|x l IH]; intros Hall; cbn; [lia|].
  rewrite (Hall x) by left. rewrite IH by (intros; apply Hall; by right). lia.
Qed.

(** The length of a line of [n] cells, given the summed length of the
    cells. *)
Lemma line_length (cells : list string) :
  cells ≠ [] ->
  String.length ("| " +:+ join " | " cells +:+ " |" +:+ newline)
  = (total_length cells + 3 * length cells + 2)%nat.
Proof.
  intros Hne. rewrite !str_app_length, join_length. cbn.
  destruct cells; [done|]. cbn [length]. lia.
Qed.

(** X3.  The lines of a table align when the texts fit: with [n] columns
    of width [w], the separator is always [n * (w + 3) + 2] characters long,
    line break included; the header and every body line are never shorter
    than that, and exactly that long when every column name, respectively
    every cell text of the row, is at most [w] characters long. *)
Theorem X3_lines_align column_datas column_width b :
  TB.init column_datas column_width = Ok b ->
  String.length (TB.generate_horizontal_lines b)
  = (length column_datas * (Z.to_nat column_width + 3) + 2)%nat /\
  (length column_datas * (Z.to_nat column_width + 3) + 2
   <= String.length (TB.generate_header b))%nat /\
  ((forall c, c ∈ column_datas ->
              (String.length (column_name c) <= Z.to_nat column_width)%nat) ->
   String.length (TB.generate_header b)
   = (length column_datas * (Z.to_nat column_width + 3) + 2)%nat) /\
  forall row,
    row ∈ TB.row_datas b ->
    (length column_datas * (Z.to_nat column_width + 3) + 2
     <= String.length (TB.row_line b row))%nat /\
    ((forall v, v ∈ row ->
                (String.length (py_str v) <= Z.to_nat column_width)%nat) ->
     String.length (TB.row_line b row)
     = (length column_datas * (Z.to_nat column_width + 3) + 2)%nat).
Proof.
  intros Hb. destruct (init_inv _ _ _ Hb) as (c0 & H0 & Hcols & Hw & Hrows).
  assert (column_datas ≠ []) as Hne by (by destruct column_datas).
  unfold TB.generate_horizontal_lines, TB.generate_header, TB.row_line.
  rewrite Hcols, Hw. split_and!.
  - rewrite line_length by (by destruct column_datas).
    rewrite (total_length_eq _ _ (Z.to_nat column_width)), length_map.
    + lia.
    + intros c _. rewrite ljust_length. cbn. lia.
  - rewrite line_length by (by destruct column_datas). rewrite length_map.
    pose proof (total_length_ge
                  (fun data => ljust (column_name data) column_width " ")
                  column_datas (Z.to_nat column_width)) as Hge.
    cbn beta in Hge. unshelve epose proof (Hge _) as Hge'.
    { intros c _. rewrite ljust_length. lia. }
    lia.
  - intros Hfit. rewrite line_length by (by destruct column_datas).
    rewrite (total_length_eq _ _ (Z.to_nat column_width)), length_map.
    + lia.
    + intros c Hc. rewrite ljust_length. specialize (Hfit c Hc). lia.
  - intros row Hrow.
    assert (length row = length column_datas) as Hlen.
    { apply list_elem_of_lookup in Hrow as [i Hi].
      destruct (Forall2_lookup_r _ _ _ _ _ Hrows Hi) as (i' & _ & Hcells).
      symmetry. by eapply Forall2_length. }
    assert (row ≠ []) as Hrne by (destruct row, column_datas; done).
    split.
    + rewrite line_length by (by destruct row). rewrite length_map, Hlen.
      pose proof (total_length_ge
                    (fun data => ljust (py_str data) column_width " ")
                    row (Z.to_nat column_width)) as Hge.
      cbn beta in Hge. unshelve epose proof (Hge _) as Hge'.
      { intros v _. rewrite ljust_length. lia. }
      lia.
    + intros Hfit. rewrite line_length by (by destruct row).
      rewrite (total_length_eq _ _ (Z.to_nat column_width)), length_map, Hlen.
      * lia.
      * intros v Hv. rewrite ljust_length. specialize (Hfit v Hv). lia.
Qed.

Lemma X3_witness :
  exists b,
    TB.init [ {| column_name := "func"; column_data := [VStr "f"; VStr "g"] |};
              {| column_name := "calls"; column_data := [VInt 2; VInt 0] |} ] 9
    = Ok b /\
    String.length (TB.generate_horizontal_lines b) = 26%nat.
Proof.
  eexists. split; [vm_compute; reflexivity|].
  destruct (X3_lines_align
              [ {| column_name := "func"; column_data := [VStr "f"; VStr "g"] |};
                {| column_name := "calls"; column_data := [VInt 2; VInt 0] |} ]
              9 _ eq_refl) as (Hsep & _).
  exact Hsep.
Defined.



(** ** The number of lines *)

Lemma count_char_line (cells : list string) :
  (forall x, x ∈ cells -> count_char nl x = O) ->
  count_char nl ("| " +:+ join " | " cells +:+ " |" +:+ newline) = 1%nat.
Proof.
  intros Hcells. rewrite !count_char_app, count_char_join; done.
Qed.

Lemma count_char_concat_lines (lines : list string) :
  (forall line, line ∈ lines -> count_char nl line = 1%nat) ->
  count_char nl (concat_lines lines) = length lines.
Proof.
  induction lines as [|line lines IH]; intros Hall; [done|].
  cbn [concat_lines length]. rewrite count_char_app, (Hall line) by left.
  rewrite IH; [done|]. intros; apply Hall; by right.
Qed.

(** Every cell of a row of a builder is a cell of one of its columns. *)
Lemma row_cell_from_column column_datas column_width b row v :
  TB.init column_datas column_width = Ok b ->
  row ∈ TB.row_datas b -> v ∈ row ->
  exists c, c ∈ column_datas /\ v ∈ column_data c.
Proof.
  intros Hb Hrow Hv. destruct (init_inv _ _ _ Hb) as (c0 & _ & _ & _ & Hrows).
  apply list_elem_of_lookup in Hrow as [i Hi].
  destruct (Forall2_lookup_r _ _ _ _ _ Hrows Hi) as (i' & _ & Hcells).
  apply list_elem_of_lookup in Hv as [j Hj].
  destruct (Forall2_lookup_r _ _ _ _ _ Hcells Hj) as (c & Hc & Hcell).
  exists c. split; apply list_elem_of_lookup; eauto.
Qed.

(** X4.  When no column name and no cell text holds a line break, the
    table has exactly two lines more than the builder has rows: it holds
    that many line breaks, one at the end of each line. *)
Theorem X4_table_line_count column_datas column_width b :
  TB.init column_datas column_width = Ok b ->
  (forall c, c ∈ column_datas ->
             count_char nl (column_name c) = O /\
             forall v, v ∈ column_data c -> count_char nl (py_str v) = O) ->
  count_char nl (TB.generate_table_str b) = (2 + length (TB.row_datas b))%nat.
Proof.
  intros Hb Hclean.
  destruct (init_inv _ _ _ Hb) as (c0 & H0 & Hcols & Hw & Hrows).
  unfold TB.generate_table_str. rewrite body_lines.
  2:{ rewrite Hcols. by destruct column_datas. }
  rewrite !count_char_app.
  unfold TB.generate_header, TB.generate_horizontal_lines.
  rewrite !count_char_line, count_char_concat_lines.
  - rewrite length_map. lia.
  - intros line (row & -> & Hrow)%list_elem_of_fmap. unfold TB.row_line.
    apply count_char_line.
    intros x (v & -> & Hv)%list_elem_of_fmap.
    rewrite count_char_ljust by done.
    destruct (row_cell_from_column _ _ _ _ _ Hb Hrow Hv) as (c & Hc & Hvc).
    by apply (Hclean c Hc).
  - intros x (c & -> & Hc)%list_elem_of_fmap. by rewrite count_char_ljust.
  - intros x (c & -> & Hc)%list_elem_of_fmap.
    rewrite count_char_ljust by done. apply Hclean. by rewrite <- Hcols.
Qed.

Lemma X4_witness :
  exists b,
    TB.init [ {| column_name := "func"; column_data := [VStr "f"; VStr "g"] |};
              {| column_name := "calls"; column_data := [VInt 2; VInt 0] |} ] 9
    = Ok b /\
    count_char nl (TB.generate_table_str b) = 4%nat.
Proof.
  eexists. split; [vm_compute; reflexivity|].
  apply (X4_table_line_count
           [ {| column_name := "func"; column_data := [VStr "f"; VStr "g"] |};
             {| column_name := "calls"; column_data := [VInt 2; VInt 0] |} ]
           9 _ eq_refl).
  intros c Hc. rewrite !elem_of_cons in Hc.
  destruct Hc as [->|[->|Hc]]; [| |by apply elem_of_nil in Hc].
  - split; [vm_compute; reflexivity|]. cbn. intros v Hv.
    rewrite !elem_of_cons in Hv.
    destruct Hv as [->|[->|Hv]]; [vm_compute; reflexivity..|by apply elem_of_nil in Hv].
  - split; [vm_compute; reflexivity|]. cbn. intros v Hv.
    rewrite !elem_of_cons in Hv.
    destruct Hv as [->|[->|Hv]]; [vm_compute; reflexivity..|by apply elem_of_nil in Hv].
Defined.

(** ** The table of a fresh printer *)




(** ** Lookup and construction *)

(** X6.  Lookup undoes construction when names are unique: in a printer
    whose records have pairwise different names, looking up the name of any
    of its records returns that very record. *)
Theorem X6_getitem_finds_each_unique_name p r function_name :
  NoDup (map name (RP.profiling_results p)) ->
  r ∈ RP.profiling_results p ->
  name r = VStr function_name ->
  RP.getitem p function_name = Ok r.
Proof.
  intros Hnodup Hin Hname.
  apply list_elem_of_split in Hin as (before & after & Hl).
  rewrite Hl, map_app in Hnodup. cbn in Hnodup.
  apply NoDup_app in Hnodup as (_ & Hfresh & _).
  assert (List.filter (fun x => eq_str (name x) function_name)
                      (RP.profiling_results p)
          = r :: List.filter (fun x => eq_str (name x) function_name) after)
    as Hfilter.
  { apply filter_head. exists before, after. split_and!; try done.
    - by apply eq_str_true.
    - intros a Ha. destruct (eq_str (name a) function_name) eqn:E; [|done].
      apply eq_str_true in E. exfalso.
      apply (Hfresh (name a)).
      + apply list_elem_of_fmap. by exists a.
      + rewrite E, <- Hname. left. }
  unfold RP.getitem. by rewrite Hfilter.
Qed.

Lemma X6_witness : RP.getitem printer_fg "g" = Ok record_g.
Proof.
  apply X6_getitem_finds_each_unique_name.
  - cbn. repeat constructor.
    + rewrite list_elem_of_singleton. intros [=].
    + apply not_elem_of_nil.
  - apply elem_of_cons. right. apply elem_of_cons. left. reflexivity.
  - reflexivity.
Defined.

(** X7.  Construction from a list returns exactly when every raw record
    has the four fields as its keys and no other; when it raises, it raises
    the error of the dataclass constructor and nothing else. *)
Theorem X7_init_returns_iff_entries_exact (raws : list (gmap string Value)) :
  (is_ok (RP.init (Some raws)) <->
   Forall (fun kwargs => dom kwargs = fields) raws) /\
  (forall e, RP.init (Some raws) = Err e -> e = TypeError).
Proof.
  cbn. destruct (comprehension ProfilingsFunctionResult_init raws)
    as [results|e] eqn:Hresults; cbn.
  - split; [|done]. split; [|done]. intros _.
    apply comprehension_Ok in Hresults. apply Forall_forall.
    intros kwargs Hin. apply list_elem_of_lookup in Hin as [i Hi].
    destruct (Forall2_lookup_l _ _ _ _ _ Hresults Hi) as (r & _ & Hr).
    by apply ProfilingsFunctionResult_init_Ok in Hr as [? _].
  - apply comprehension_Err in Hresults as (l1 & bad & l2 & -> & _ & Hbad).
    pose proof (ProfilingsFunctionResult_init_raises _ _ Hbad) as ->.
    split; [|by intros e [= <-]]. split; [done|].
    intros Hall. rewrite Forall_forall in Hall.
    assert (dom bad = fields) as Hdom.
    { apply Hall. apply elem_of_app. right. left. }
    by apply ProfilingsFunctionResult_init_Err in Hbad.
Qed.

(** X11.  A record keeps all of its raw record: two raw records from which
    the dataclass constructor makes the same record are the same
    dictionary. *)
Theorem X11_record_determines_raw_entry (kwargs kwargs' : gmap string Value) r :
  ProfilingsFunctionResult_init kwargs = Ok r ->
  ProfilingsFunctionResult_init kwargs' = Ok r ->
  kwargs = kwargs'.
Proof.
  intros (Hdom & Hn & Ht & Hc & Hch)%ProfilingsFunctionResult_init_Ok
         (Hdom' & Hn' & Ht' & Hc' & Hch')%ProfilingsFunctionResult_init_Ok.
  apply map_eq. intros k.
  destruct (decide (k ∈ fields)) as [Hk|Hk].
  - apply elem_of_fields in Hk as [-> | [-> | [-> | ->]]]; congruence.
  - assert (kwargs !! k = None) as ->
      by (apply not_elem_of_dom; by rewrite Hdom).
    symmetry. apply not_elem_of_dom. by rewrite Hdom'.
Qed.

Lemma X11_witness :
  <["children" := VObj "[]"]>
    (<["count" := VInt 2]>
       (<["total_time" := VFloat "1.5"]> (<["name" := VStr "f"]> ∅)))
  = raw_f.
Proof.
  apply (X11_record_determines_raw_entry _ raw_f record_f);
    vm_compute; reflexivity.
Defined.

(** ** Printers in use *)

Lemma reachable_func_column p :
  reachable p ->
  RP.column_datas p !! 0%nat
  = Some {| column_name := "func";
            column_data := map name (RP.profiling_results p) |}.
Proof.
  induction 1 as [raws p Hinit|p column_name callable Hp IH].
  - by apply init_Some_Ok in Hinit as [_ ->].
  - unfold RP.add_column.
    destruct (comprehension _ _) as [data|e]; cbn; [|done].
    by apply lookup_app_l_Some.
Qed.

(** X8.  In every printer in use, column 0 is the column "func" holding
    the record names in record order, and every column has exactly one cell
    per record. *)
Theorem X8_printer_invariants p :
  reachable p ->
  RP.column_datas p !! 0%nat
  = Some {| column_name := "func";
            column_data := map name (RP.profiling_results p) |} /\
  Forall (fun c => length (column_data c) = length (RP.profiling_results p))
         (RP.column_datas p).
Proof.
  intros Hp. split; [by apply reachable_func_column|].
  by apply reachable_rectangular.
Qed.

Lemma X8_witness :
  RP.column_datas (add_columns [("calls", fun r => Ok (count r));
                                ("per call", per_call)] printer_fg) !! 0%nat
  = Some {| column_name := "func";
            column_data :=
              map name (RP.profiling_results
                          (add_columns [("calls", fun r => Ok (count r));
                                        ("per call", per_call)] printer_fg)) |}.
Proof.
  apply X8_printer_invariants.
  unfold add_columns. cbn [fold_left fst snd].
  do 2 apply reachable_add_column.
  apply (reachable_init [raw_f; (<["name" := VStr "g"]>
                                   (<["total_time" := VFloat "0.0"]>
                                      (<["count" := VInt 0]> raw_f)))]).
  vm_compute. reflexivity.
Defined.

Lemma add_column_effect cname callable p :
  RP.profiling_results (RP.add_column cname callable p).2
  = RP.profiling_results p /\
  exists added,
    RP.column_datas (RP.add_column cname callable p).2
    = RP.column_datas p ++ added /\
    map column_name added
    = if returns callable (RP.profiling_results p) then [cname] else [].
Proof.
  unfold RP.add_column, returns.
  destruct (comprehension _ _) as [data|e]; cbn.
  - split; [done|]. by eexists [_].
  - split; [done|]. exists []. by rewrite app_nil_r.
Qed.

(** X9.  Whatever sequence of [add_column] calls is made, returning or
    raising: the records stay as they were, so every lookup gives what it
    gave before; the columns that were there stay first, in their order;
    and the columns after them carry, in call order, the names of the calls
    whose projector returned for every record. *)
Theorem X9_add_columns_only_appends (calls : list (string * RP.projector)) p :
  RP.profiling_results (add_columns calls p) = RP.profiling_results p /\
  (exists added,
      RP.column_datas (add_columns calls p) = RP.column_datas p ++ added /\
      map column_name added
      = map fst (List.filter
                   (fun call => returns call.2 (RP.profiling_results p))
                   calls)) /\
  forall function_name,
    RP.getitem (add_columns calls p) function_name
    = RP.getitem p function_name.
Proof.
  assert (RP.profiling_results (add_columns calls p) = RP.profiling_results p /\
          exists added,
            RP.column_datas (add_columns calls p) = RP.column_datas p ++ added /\
            map column_name added
            = map fst (List.filter
                         (fun call => returns call.2 (RP.profiling_results p))
                         calls)) as [Hrecords Hcolumns].
  { revert p. induction calls as [|[cname callable] calls IH]; intros p.
    - split; [done|]. exists []. by rewrite app_nil_r.
    - cbn [add_columns fold_left fst snd List.filter].
      destruct (add_column_effect cname callable p)
        as (Hrec1 & added1 & Hcols1 & Hnames1).
      destruct (IH (RP.add_column cname callable p).2)
        as (Hrec & added & Hcols & Hnames).
      unfold add_columns in Hrec, Hcols. rewrite Hrec1 in Hrec, Hnames.
      split; [done|]. exists (added1 ++ added).
      rewrite Hcols, Hcols1, <- List.app_assoc. split; [done|].
      rewrite map_app, Hnames1, Hnames.
      by destruct (returns callable (RP.profiling_results p)). }
  split_and!; [done..|].
  intros function_name. unfold RP.getitem. by rewrite Hrecords.
Qed.

(** X10.  The rows of the table of a printer in use follow its records:
    there is one row per record, in record order, it begins with the name
    of its record, and it has one cell per column. *)
Theorem X10_rows_follow_records p column_width b :
  reachable p ->
  TB.init (RP.column_datas p) column_width = Ok b ->
  Forall2 (fun r row =>
             head row = Some (name r) /\
             length row = length (RP.column_datas p))
          (RP.profiling_results p) (TB.row_datas b).
Proof.
  intros Hp Hb. pose proof (reachable_func_column p Hp) as Hfunc.
  destruct (init_inv _ _ _ Hb) as (c0 & H0 & _ & _ & Hrows).
  rewrite Hfunc in H0. injection H0 as <-. cbn in Hrows.
  rewrite length_map in Hrows.
  apply Forall2_same_length_lookup_2.
  - apply Forall2_length in Hrows. by rewrite length_seq in Hrows.
  - intros i r row Hr Hrow.
    destruct (Forall2_lookup_r _ _ _ _ _ Hrows Hrow) as (i' & Hi' & Hcells).
    apply lookup_seq in Hi' as [-> _]. cbn in Hcells. split.
    + destruct (Forall2_lookup_l _ _ _ _ _ Hcells Hfunc) as (v & Hv & Hcell).
      cbn in Hcell. rewrite list_lookup_fmap, Hr in Hcell. cbn in Hcell.
      injection Hcell as <-. by rewrite head_lookup.
    + symmetry. by eapply Forall2_length.
Qed.

Lemma X10_witness :
  exists b,
    TB.init (RP.column_datas
               (RP.add_column "calls" (fun r => Ok (count r))
                  {| RP.profiling_results := [record_f];
                     RP.column_datas :=
                       [ {| column_name := "func";
                            column_data := [VStr "f"] |} ] |}).2) 7 = Ok b /\
    Forall2 (fun r row => head row = Some (name r) /\ length row = 2%nat)
            [record_f] (TB.row_datas b).
Proof.
  eexists. split; [vm_compute; reflexivity|].
  apply (X10_rows_follow_records
           (RP.add_column "calls" (fun r => Ok (count r))
              {| RP.profiling_results := [record_f];
                 RP.column_datas :=
                   [ {| column_name := "func";
                        column_data := [VStr "f"] |} ] |}).2 7).
  - apply reachable_add_column. apply (reachable_init [raw_f]).
    vm_compute. reflexivity.
  - vm_compute. reflexivity.
Defined.
